(** * pyastar2d: the Python adaptation layer [astar_path]

    Shallow embedding of [src/pyastar2d/astar_wrapper.py].  The wrapper
    validates a NumPy grid of float32 costs and two (row, col) pairs,
    flattens the grid, converts the pairs to flat indices and hands
    everything to the compiled search function [pyastar2d.astar.astar].

    - float32 values are [spec_float] (binary32 when [valid_binary 24 128]);
    - a NumPy array is a header (dtype, shape, strides, offset) over a
      buffer living in a store, so that views, copies and aliasing are
      visible;
    - Python statements run in a state-and-exception monad whose state is
      the store of buffers and the log of calls made to the compiled core.

    The module-level assignments of [restype] and [argtypes] only set two
    attributes of the extension module; they take no part in a call of
    [astar_path] and are not modelled.  Python integers are [Z], the
    [start] and [goal] tuples are pairs of integers, as annotated. *)

From Stdlib Require Import ZArith List Bool Lia.
From Stdlib Require Import Floats.SpecFloat.
From stdpp Require Import base option list gmap strings.

Local Open Scope Z_scope.

(** ** float32 values and their comparison *)

Definition is_nan (x : spec_float) : bool :=
  match x with S754_nan => true | _ => false end.

(** The literal [1.]: the number one in canonical binary32 form, the form
    in which it is compared with a float32 scalar. *)
Definition f32_one : spec_float := S754_finite false 8388608 (-23).

(** [np.minimum] on floats, as NumPy's scalar loop has it:
    [(a <= b || isnan(a)) ? a : b].  A NaN operand wins.  Of two zeros
    of different sign the first is kept here; a vectorised NumPy build
    may return the other one, the two being equal under [<=]. *)
Definition np_minimum (a b : spec_float) : spec_float :=
  if SFleb a b || is_nan a then a else b.

(** [np.minimum.reduce] over the elements of a non-empty array; [None]
    stands for the zero-size case, which has no identity.  The order in
    which NumPy visits the elements can only change which of two equal
    minima (a zero of either sign) is returned. *)
Definition minimum_reduce (l : list spec_float) : option spec_float :=
  match l with
  | [] => None
  | x :: xs => Some (fold_left np_minimum xs x)
  end.

(** ** NumPy arrays *)

(** Element types ([ndarray.dtype]).  Only [float32] passes the wrapper's
    assertion; the others stand for every dtype that differs from it. *)
Inductive np_dtype :=
  | bool_ | int8 | int16 | int32 | int64 | uint8
  | float16 | float32 | float64 | complex64 | object_.

#[global] Instance np_dtype_eq_dec : EqDecision np_dtype.
Proof. solve_decision. Defined.

(** Buffers live in a store and are named by a location. *)
Definition loc := positive.

(** An array is a header over a buffer: [shape] and [strides] have one
    entry per axis and [offset] is the position of element (0, ..., 0).
    Strides and offset are counted in elements, not bytes.  Two headers
    with the same [base] are views of one buffer. *)
Record ndarray := NdArray {
  dtype : np_dtype;
  shape : list nat;
  strides : list Z;
  offset : Z;
  base : loc
}.

(** Reading position [p] of a buffer. *)
Definition read (buf : list spec_float) (p : Z) : spec_float :=
  nth (Z.to_nat p) buf S754_nan.

(** The elements of an array in C (row-major) order: the last axis varies
    fastest.  A zero-dimensional array has one element. *)
Fixpoint gather (buf : list spec_float) (off : Z)
    (shp : list nat) (str : list Z) : list spec_float :=
  match shp with
  | [] => [read buf off]
  | n :: shp' =>
      flat_map (λ i, gather buf (off + Z.of_nat i * hd 0 str) shp' (tl str))
               (seq 0 n)
  end.

(** [ndarray.size]: the number of elements. *)
Definition size_of (shp : list nat) : nat := fold_right Nat.mul 1%nat shp.

(** [weights[r][c]] for a two-dimensional array and non-negative indices. *)
Definition getitem2 (buf : list spec_float) (a : ndarray) (r c : nat) : spec_float :=
  read buf (offset a + Z.of_nat r * hd 0 (strides a)
                     + Z.of_nat c * hd 0 (tl (strides a))).

(** ** Exceptions, the interpreter state and the monad of statements *)

(** The value substituted into a message. *)
Inductive fmt_arg :=
  | NoArg
  | DtypeArg (d : np_dtype)
  | FloatArg (x : spec_float)
  | IntArg (n : Z)
  | PairArg (p : Z * Z).

(** An exception is its class, the text of its message as the source
    writes it, and the value the message is formatted with. *)
Inductive exn :=
  | AssertionError (msg : string) (arg : fmt_arg)
  | ValueError (msg : string) (arg : fmt_arg)
  | IndexError (msg : string) (arg : fmt_arg).

(** A path as the core returns it: N rows of (i, j). *)
Definition path := list (Z * Z).

(** One crossing of the foreign boundary: the arguments of
    [pyastar2d.astar.astar], the array argument by its contents. *)
Record core_call := CoreCall {
  cc_weights : list spec_float;
  cc_height : Z;
  cc_width : Z;
  cc_start : Z;
  cc_goal : Z;
  cc_allow_diagonal : bool;
  cc_heuristic_override : Z;
  cc_tiebreaker_coefficient : spec_float
}.

Record world := World {
  heap : gmap loc (list spec_float);
  calls : list core_call
}.

Definition M (A : Type) : Type := world → (exn + A) * world.

#[global] Instance M_ret : MRet M := λ A a st, (inr a, st).
#[global] Instance M_bind : MBind M := λ A B f m st,
  match m st with
  | (inl e, st') => (inl e, st')
  | (inr a, st') => f a st'
  end.

Definition raise {A : Type} (e : exn) : M A := λ st, (inl e, st).

(** [assert c, e] with assertions enabled (the interpreter's default). *)
Definition py_assert (c : bool) (e : exn) : M unit :=
  if c then mret () else raise e.

(** [if c: raise e] *)
Definition raise_if (c : bool) (e : M exn) : M unit :=
  if c then x ← e; raise x else mret ().

(** [a or b]: [b] is evaluated only when [a] is false. *)
Definition py_or (a b : M bool) : M bool :=
  x ← a; if (x : bool) then mret true else b.

(** The buffer behind a header. *)
Definition buffer (st : world) (a : ndarray) : list spec_float :=
  default [] (heap st !! base a).

Definition elements (st : world) (a : ndarray) : list spec_float :=
  gather (buffer st a) (offset a) (shape a) (strides a).

(** *** The NumPy and Python operations the wrapper uses *)

(** [a.min(axis=None)] *)
Definition ndarray_min (a : ndarray) : M spec_float := λ st,
  match minimum_reduce (elements st a) with
  | Some m => (inr m, st)
  | None =>
      (inl (ValueError
        "zero-size array to reduction operation minimum which has no identity"
        NoArg), st)
  end.

(** [a.shape[i]] *)
Definition shape_getitem (a : ndarray) (i : nat) : M Z :=
  match shape a !! i with
  | Some n => mret (Z.of_nat n)
  | None => raise (IndexError "tuple index out of range" NoArg)
  end.

(** [height, width = a.shape] *)
Definition unpack2 (shp : list nat) : M (Z * Z) :=
  match shp with
  | [h; w] => mret (Z.of_nat h, Z.of_nat w)
  | _ :: _ :: _ :: _ =>
      raise (ValueError "too many values to unpack (expected 2)" NoArg)
  | _ =>
      raise (ValueError "not enough values to unpack (expected 2, got {n})"
                        (IntArg (Z.of_nat (length shp))))
  end.

(** [np.ravel_multi_index(p, (h, w))] with the default mode, [raise]. *)
Definition ravel_multi_index (p : Z * Z) (dims : Z * Z) : M Z :=
  if (0 <=? p.1) && (p.1 <? dims.1) && (0 <=? p.2) && (p.2 <? dims.2)
  then mret (p.1 * dims.2 + p.2)
  else raise (ValueError "invalid entry in coordinates array" NoArg).

(** [a.flatten()]: a new one-dimensional array over a new buffer that
    holds the elements of [a] in C order. *)
Definition ndarray_flatten (a : ndarray) : M ndarray := λ st,
  let l := fresh (dom (heap st)) in
  let data := elements st a in
  (inr (NdArray (dtype a) [length data] [1] 0 l),
   World (<[l := data]> (heap st)) (calls st)).

(** [p[0] < 0 or p[0] >= a.shape[0] or p[1] < 0 or p[1] >= a.shape[1]] *)
Definition outside_grid (p : Z * Z) (a : ndarray) : M bool :=
  py_or (mret (p.1 <? 0))
  (py_or (s0 ← shape_getitem a 0; mret (p.1 >=? s0))
  (py_or (mret (p.2 <? 0))
         (s1 ← shape_getitem a 1; mret (p.2 >=? s1)))).

(** ** The compiled core and the wrapper *)

(** Modelled from the spec: the compiled search function
    [pyastar2d.astar.astar], which is not part of the Python source.  By
    the spec's external interface it takes the flattened weights, height,
    width, the flat start and goal indices, the connectivity flag, the
    heuristic selector and the tie-break coefficient, and its output is
    either a path or the no-path sentinel, so a call returns and never
    raises; it holds no state across invocations, so its output is a
    function of its arguments.  Being foreign code it is handed the buffer
    itself: the second component is what it leaves in that buffer. *)
Definition core_fn : Type :=
  list spec_float → Z → Z → Z → Z → bool → Z → spec_float →
  option path * list spec_float.

Section Wrapper.

Variable astar : core_fn.

(** [pyastar2d.astar.astar(flat, h, w, s, g, d, ho, tc)]: the call is
    logged, the core reads (and may overwrite) the buffer of [flat]. *)
Definition call_astar (flat : ndarray) (h w s g : Z) (d : bool) (ho : Z)
    (tc : spec_float) : M (option path) := λ st,
  let buf := buffer st flat in
  let '(r, buf') := astar buf h w s g d ho tc in
  (inr r,
   World (<[base flat := buf']> (heap st))
         (calls st ++ [CoreCall buf h w s g d ho tc])).

Definition astar_path (weights : ndarray) (start goal : Z * Z)
    (allow_diagonal : bool) (heuristic_override : Z)
    (tiebreaker_coefficient : spec_float) : M (option path) :=
  py_assert (bool_decide (dtype weights = float32))
    (AssertionError
       "weights must have np.float32 data type, but has {weights.dtype}"
       (DtypeArg (dtype weights)));;
  (* For the heuristic to be valid, each move must cost at least 1. *)
  m ← ndarray_min weights;
  raise_if (SFltb m f32_one)
    (m' ← ndarray_min weights;
     mret (ValueError "Minimum cost to move must be 1, but got %f"
                      (FloatArg m')));;
  (* Ensure start is within bounds. *)
  out ← outside_grid start weights;
  raise_if out
    (mret (ValueError "Start of {start} lies outside grid." (PairArg start)));;
  (* Ensure goal is within bounds. *)
  out ← outside_grid goal weights;
  raise_if out
    (mret (ValueError "Goal of {goal} lies outside grid." (PairArg goal)));;
  dims ← unpack2 (shape weights);
  let '(height, width) := dims in
  start_idx ← ravel_multi_index start (height, width);
  goal_idx ← ravel_multi_index goal (height, width);
  flat ← ndarray_flatten weights;
  path ← call_astar flat height width start_idx goal_idx allow_diagonal
           heuristic_override tiebreaker_coefficient;
  mret path.

End Wrapper.

(** ** Vocabulary of the statements *)

(** [p[0]] in [0, H) and [p[1]] in [0, W). *)
Definition in_bounds (p : Z * Z) (H W : nat) : Prop :=
  0 ≤ p.1 < Z.of_nat H ∧ 0 ≤ p.2 < Z.of_nat W.

Definition in_boundsb (p : Z * Z) (H W : nat) : bool :=
  (0 <=? p.1) && (p.1 <? Z.of_nat H) && (0 <=? p.2) && (p.2 <? Z.of_nat W).

(** The cost test [weights.min() < 1.] does not fire. *)
Definition cost_check_passes (l : list spec_float) : Prop :=
  ∃ m, minimum_reduce l = Some m ∧ SFltb m f32_one = false.

(** An input that passes every check of the wrapper, for a grid of shape
    (H, W). *)
Definition validated (st : world) (w : ndarray) (start goal : Z * Z)
    (H W : nat) : Prop :=
  dtype w = float32 ∧ shape w = [H; W] ∧
  cost_check_passes (elements st w) ∧
  in_bounds start H W ∧ in_bounds goal H W.

(** The flat index of a (row, col) pair in a grid of width [W]. *)
Definition flat_index (p : Z * Z) (W : nat) : Z := p.1 * Z.of_nat W + p.2.

(** ** Sample data *)

(** A core for sample runs: it answers the one-cell path when start and
    goal coincide and the sentinel otherwise, and scribbles over the
    buffer it was given. *)
Definition scribbling_core : core_fn := λ buf h w s g d ho tc,
  (if s =? g then Some [(s / w, s mod w)] else None,
   map (λ _, S754_zero false) buf).

Definition f32_half : spec_float := S754_finite false 8388608 (-24).
Definition f32_two : spec_float := S754_finite false 8388608 (-22).

(** The Python floats [0.0] and [-1.0]. *)
Definition py_zero : spec_float := S754_zero false.
Definition py_minus_one : spec_float := S754_finite true 4503599627370496 (-52).

(** A store with one 2 x 3 C-contiguous grid at location 1:
    [[1, 2, 1], [2, 1, 2]]. *)
Definition grid23 : ndarray := NdArray float32 [2%nat; 3%nat] [3; 1] 0 1%positive.
Definition world23 : world :=
  World {[ 1%positive := [f32_one; f32_two; f32_one; f32_two; f32_one; f32_two] ]} [].

(** The same grid in Fortran (column-major) layout at location 5 of a
    store that holds other buffers and has already seen a call. *)
Definition grid23_F : ndarray := NdArray float32 [2%nat; 3%nat] [1; 2] 0 5%positive.
Definition world23_F : world :=
  World {[ 5%positive := [f32_one; f32_two; f32_two; f32_one; f32_one; f32_two];
           1%positive := [f32_half] ]}
        [CoreCall [f32_one] 1 1 0 0 false 0 py_zero].

(** The buffer of [grid23] read as float64. *)
Definition grid23_f64 : ndarray := NdArray float64 [2%nat; 3%nat] [3; 1] 0 1%positive.

(** A 1 x 2 grid holding a NaN and one half: [[nan, 0.5]]. *)
Definition grid_nan : ndarray := NdArray float32 [1%nat; 2%nat] [2; 1] 0 1%positive.
Definition world_nan : world :=
  World {[ 1%positive := [S754_nan; f32_half] ]} [].

(** A 2 x 2 grid with one cell cheaper than one: [[1, 0.5], [2, 1]]. *)
Definition grid_cheap : ndarray := NdArray float32 [2%nat; 2%nat] [2; 1] 0 1%positive.
Definition world_cheap : world :=
  World {[ 1%positive := [f32_one; f32_half; f32_two; f32_one] ]} [].

(** Other headers over the buffer of [grid23]: a grid with no rows, the
    six numbers as a one-dimensional array, and as a 1 x 2 x 3 array. *)
Definition grid03 : ndarray := NdArray float32 [0%nat; 3%nat] [3; 1] 0 1%positive.
Definition row6 : ndarray := NdArray float32 [6%nat] [1] 0 1%positive.
Definition cube123 : ndarray :=
  NdArray float32 [1%nat; 2%nat; 3%nat] [6; 3; 1] 0 1%positive.

(** ** What the core expects of a call *)

(** Positive dimensions that match the length of the weights, and start
    and goal indices inside the flattened grid. *)
Definition well_formed_call (c : core_call) : Prop :=
  0 < cc_height c ∧ 0 < cc_width c ∧
  Z.of_nat (length (cc_weights c)) = cc_height c * cc_width c ∧
  0 ≤ cc_start c < cc_height c * cc_width c ∧
  0 ≤ cc_goal c < cc_height c * cc_width c.

(** * Properties *)

(** ** float32 comparison and the minimum *)

Example f32_one_is_SFone : SFone 24 128 = f32_one.
Proof. reflexivity. Qed.

Example f32_one_valid : valid_binary 24 128 f32_one = true.
Proof. reflexivity. Qed.

(** *** Facts about the comparison *)

Lemma SFcompare_antisym (a b : spec_float) :
  SFcompare b a = option_map CompOpp (SFcompare a b).
Proof.
  destruct a as [sa|sa| |sa ma ea], b as [sb|sb| |sb mb eb];
    simpl; try reflexivity;
    try (destruct sa; reflexivity); try (destruct sb; reflexivity);
    try (destruct sa, sb; reflexivity).
  destruct sa, sb; simpl; try reflexivity;
    rewrite (Z.compare_antisym ea eb);
    destruct (ea ?= eb); simpl; try reflexivity;
    rewrite (Pos.compare_cont_antisym ma mb Eq); simpl;
    try rewrite CompOpp_involutive; reflexivity.
Qed.

Lemma SFleb_not_SFltb (a b : spec_float) :
  SFleb a b = true → SFltb b a = false.
Proof.
  unfold SFleb, SFltb. rewrite (SFcompare_antisym a b).
  destruct (SFcompare a b) as [[]|]; simpl; congruence.
Qed.

Lemma SFleb_not_nan_r (a b : spec_float) : SFleb a b = true → is_nan b = false.
Proof. intros H. destruct b; try reflexivity. destruct a; discriminate H. Qed.

Lemma SFltb_not_nan_l (a b : spec_float) : SFltb a b = true → is_nan a = false.
Proof. intros H. destruct a; try reflexivity. discriminate H. Qed.

Local Ltac order_cases :=
  repeat match goal with
  | |- context [Pos.compare_cont Eq ?p ?q] =>
      change (Pos.compare_cont Eq p q) with (Pos.compare p q);
      destruct (Pos.compare_spec p q)
  | |- context [Z.compare ?x ?y] => destruct (Z.compare_spec x y)
  end;
  simpl; subst; try reflexivity; try discriminate; try lia.

Lemma SFleb_SFltb_trans (a b c : spec_float) :
  SFleb a b = true → SFltb b c = true → SFltb a c = true.
Proof.
  unfold SFleb, SFltb.
  destruct a as [sa|sa| |sa ma ea], b as [sb|sb| |sb mb eb],
           c as [sc|sc| |sc mc ec]; simpl;
    try discriminate; try reflexivity;
    repeat match goal with s : bool |- _ => destruct s end;
    simpl; try discriminate; try reflexivity; order_cases.
Qed.

(** *** Facts about the reduction *)

Lemma np_minimum_cases (a b : spec_float) :
  np_minimum a b = a ∨ np_minimum a b = b.
Proof. unfold np_minimum. destruct (SFleb a b || is_nan a); auto. Qed.

Lemma np_minimum_nan_l (b : spec_float) : np_minimum S754_nan b = S754_nan.
Proof. reflexivity. Qed.

Lemma np_minimum_nan_r (a : spec_float) : np_minimum a S754_nan = S754_nan.
Proof. destruct a; reflexivity. Qed.

Lemma np_minimum_le_l (a b : spec_float) :
  is_nan a = false → is_nan b = false → SFleb (np_minimum a b) a = true.
Proof.
  unfold np_minimum. intros Ha Hb. rewrite Ha, orb_false_r.
  destruct (SFleb a b) eqn:E.
  - unfold SFleb in *. destruct a; try discriminate;
      simpl; repeat match goal with s : bool |- _ => destruct s end;
      simpl; try reflexivity; order_cases.
  - unfold SFleb in *. rewrite (SFcompare_antisym a b).
    destruct (SFcompare a b) as [[]|] eqn:C; simpl; try reflexivity;
      try discriminate.
    destruct a, b; discriminate.
Qed.

Lemma np_minimum_le_r (a b : spec_float) :
  is_nan a = false → is_nan b = false → SFleb (np_minimum a b) b = true.
Proof.
  unfold np_minimum. intros Ha Hb. rewrite Ha, orb_false_r.
  destruct (SFleb a b) eqn:E; [exact E|].
  unfold SFleb. destruct b; try discriminate;
    simpl; repeat match goal with s : bool |- _ => destruct s end;
    simpl; try reflexivity; order_cases.
Qed.

Lemma SFleb_trans (a b c : spec_float) :
  SFleb a b = true → SFleb b c = true → SFleb a c = true.
Proof.
  unfold SFleb.
  destruct a as [sa|sa| |sa ma ea], b as [sb|sb| |sb mb eb],
           c as [sc|sc| |sc mc ec]; simpl;
    try discriminate; try reflexivity;
    repeat match goal with s : bool |- _ => destruct s end;
    simpl; try discriminate; try reflexivity; order_cases.
Qed.

Lemma fold_minimum_elem (xs : list spec_float) (x : spec_float) :
  fold_left np_minimum xs x ∈ x :: xs.
Proof.
  revert x. induction xs as [|y ys IH]; intros x; simpl.
  - apply list_elem_of_here.
  - specialize (IH (np_minimum x y)).
    apply elem_of_cons in IH as [IH|IH].
    + rewrite IH. destruct (np_minimum_cases x y) as [->| ->].
      * apply list_elem_of_here.
      * apply list_elem_of_further, list_elem_of_here.
    + by do 2 apply list_elem_of_further.
Qed.

Lemma fold_minimum_nan_acc (xs : list spec_float) :
  fold_left np_minimum xs S754_nan = S754_nan.
Proof. induction xs as [|y ys IH]; simpl; auto. Qed.

Lemma fold_minimum_nan (xs : list spec_float) (x : spec_float) :
  S754_nan ∈ x :: xs → fold_left np_minimum xs x = S754_nan.
Proof.
  revert x. induction xs as [|y ys IH]; intros x Hin; simpl.
  - apply list_elem_of_singleton in Hin. by subst.
  - apply elem_of_cons in Hin as [<-|Hin].
    + rewrite np_minimum_nan_l. apply fold_minimum_nan_acc.
    + apply elem_of_cons in Hin as [<-|Hin].
      * rewrite np_minimum_nan_r. apply fold_minimum_nan_acc.
      * apply IH. by apply list_elem_of_further.
Qed.

Lemma fold_minimum_le (xs : list spec_float) (x : spec_float) :
  Forall (λ y, is_nan y = false) (x :: xs) →
  Forall (λ y, SFleb (fold_left np_minimum xs x) y = true) (x :: xs).
Proof.
  revert x. induction xs as [|y ys IH]; intros x Hn; simpl.
  - constructor; [|constructor].
    destruct x; try discriminate (Forall_inv Hn);
      unfold SFleb; simpl; repeat match goal with s : bool |- _ => destruct s end;
      simpl; try reflexivity; order_cases.
  - inversion Hn as [|? ? Hx Hn']; subst.
    inversion Hn' as [|? ? Hy Hn'']; subst.
    assert (Hm : is_nan (np_minimum x y) = false).
    { destruct (np_minimum_cases x y) as [->| ->]; assumption. }
    specialize (IH (np_minimum x y) (Forall_cons_2 _ _ _ Hm Hn'')).
    inversion IH as [|? ? Hhd Htl]; subst.
    constructor; [|constructor]; try assumption.
    + eapply SFleb_trans; [exact Hhd|]. by apply np_minimum_le_l.
    + eapply SFleb_trans; [exact Hhd|]. by apply np_minimum_le_r.
Qed.

(** The cost test of the wrapper, [weights.min() < 1.], in terms of the
    elements: it fires exactly when no element is a NaN and some element
    is below one. *)
Lemma minimum_lt_one_iff (l : list spec_float) (m : spec_float) :
  minimum_reduce l = Some m →
  SFltb m f32_one = true ↔
  Forall (λ y, is_nan y = false) l ∧ ∃ x, x ∈ l ∧ SFltb x f32_one = true.
Proof.
  destruct l as [|x xs]; [discriminate|]. simpl. intros [= <-]. split.
  - intros Hlt. split.
    + apply Forall_forall. intros y Hy.
      destruct (is_nan y) eqn:Ey; [|reflexivity].
      destruct y; try discriminate Ey.
      rewrite (fold_minimum_nan xs x Hy) in Hlt. discriminate Hlt.
    + exists (fold_left np_minimum xs x). split; [apply fold_minimum_elem|done].
  - intros [Hn (y & Hy & Hlt)].
    pose proof (fold_minimum_le xs x Hn) as Hle.
    rewrite Forall_forall in Hle.
    eapply SFleb_SFltb_trans; [apply Hle, Hy|exact Hlt].
Qed.

Lemma minimum_ge_one (l : list spec_float) (m : spec_float) :
  Forall (λ y, SFleb f32_one y = true) l →
  minimum_reduce l = Some m → SFltb m f32_one = false.
Proof.
  destruct l as [|x xs]; [discriminate|]. simpl. intros Hall [= <-].
  apply SFleb_not_SFltb. rewrite Forall_forall in Hall.
  apply Hall, fold_minimum_elem.
Qed.

(** ** Running the wrapper *)

Lemma in_boundsb_spec (p : Z * Z) (H W : nat) :
  in_boundsb p H W = true ↔ in_bounds p H W.
Proof. unfold in_boundsb, in_bounds. destruct p as [r c]; simpl. lia. Qed.

Lemma bind_run {A B : Type} (m : M A) (f : A → M B) (st : world) :
  (m ≫= f) st =
  match m st with
  | (inl e, st') => (inl e, st')
  | (inr a, st') => f a st'
  end.
Proof. reflexivity. Qed.

Lemma outside_grid_2d (p : Z * Z) (a : ndarray) (H W : nat) (st : world) :
  shape a = [H; W] →
  outside_grid p a st = (inr (negb (in_boundsb p H W)), st).
Proof.
  intros Hs. unfold outside_grid, py_or, shape_getitem, in_boundsb.
  rewrite Hs. destruct p as [r c]. simpl.
  unfold mbind, M_bind, mret, M_ret. 
  destruct (Z.ltb_spec r 0), (Z.leb_spec 0 r); try lia; simpl; try reflexivity.
  destruct (Z.geb_spec r (Z.of_nat H)), (Z.ltb_spec r (Z.of_nat H)); try lia;
    simpl; try reflexivity.
  destruct (Z.ltb_spec c 0), (Z.leb_spec 0 c); try lia; simpl; try reflexivity.
  destruct (Z.geb_spec c (Z.of_nat W)), (Z.ltb_spec c (Z.of_nat W)); try lia;
    simpl; reflexivity.
Qed.

Lemma ravel_multi_index_in_bounds (p : Z * Z) (H W : nat) (st : world) :
  in_boundsb p H W = true →
  ravel_multi_index p (Z.of_nat H, Z.of_nat W) st = (inr (flat_index p W), st).
Proof.
  unfold ravel_multi_index, in_boundsb, flat_index. simpl. intros ->. reflexivity.
Qed.

(** *** The elements of an array *)

Lemma length_flat_map_const {A B : Type} (f : A → list B) (k : nat) (l : list A) :
  (∀ x, length (f x) = k) → length (flat_map f l) = (length l * k)%nat.
Proof.
  intros Hk. induction l as [|x l IH]; simpl; [reflexivity|].
  rewrite length_app, Hk, IH. reflexivity.
Qed.

Lemma lookup_flat_map_seq {B : Type} (f : nat → list B) (k s n i j : nat) :
  (∀ x, length (f x) = k) → (i < n)%nat → (j < k)%nat →
  flat_map f (seq s n) !! (i * k + j)%nat = f (s + i)%nat !! j.
Proof.
  intros Hk. revert s i. induction n as [|n IH]; intros s i Hi Hj; [lia|].
  simpl. destruct i as [|i].
  - rewrite Nat.add_0_r. simpl. apply lookup_app_l. rewrite Hk. exact Hj.
  - rewrite lookup_app_r; rewrite Hk; [|simpl; lia].
    replace (S i * k + j - k)%nat with (i * k + j)%nat by (simpl; lia).
    rewrite IH by lia. f_equal. f_equal. lia.
Qed.

Lemma length_gather (buf : list spec_float) (shp : list nat) (off : Z) (str : list Z) :
  length (gather buf off shp str) = size_of shp.
Proof.
  revert off str. induction shp as [|n shp IH]; intros off str; simpl.
  - reflexivity.
  - rewrite (length_flat_map_const _ (size_of shp)) by (intros; apply IH).
    rewrite length_seq. reflexivity.
Qed.

Lemma lookup_gather_2d (buf : list spec_float) (off : Z) (str : list Z)
    (H W r c : nat) :
  (r < H)%nat → (c < W)%nat →
  gather buf off [H; W] str !! (r * W + c)%nat =
  Some (read buf (off + Z.of_nat r * hd 0 str + Z.of_nat c * hd 0 (tl str))).
Proof.
  intros Hr Hc. cbn [gather].
  rewrite (lookup_flat_map_seq _ W); try assumption.
  - replace c with (c * 1 + 0)%nat at 1 by lia.
    rewrite (lookup_flat_map_seq _ 1%nat); try assumption; try lia.
    + reflexivity.
    + intros x. reflexivity.
  - intros x. rewrite (length_flat_map_const _ 1%nat), length_seq.
    + lia.
    + intros y. reflexivity.
Qed.

(** *** The wrapper on a two-dimensional float32 array, in closed form *)

Lemma astar_path_2d (astar : core_fn) (st : world) (w : ndarray)
    (start goal : Z * Z) (H W : nat) (d : bool) (ho : Z) (tc : spec_float) :
  dtype w = float32 → shape w = [H; W] →
  astar_path astar w start goal d ho tc st =
  match minimum_reduce (elements st w) with
  | None =>
      (inl (ValueError
        "zero-size array to reduction operation minimum which has no identity"
        NoArg), st)
  | Some m =>
      if SFltb m f32_one then
        (inl (ValueError "Minimum cost to move must be 1, but got %f"
                         (FloatArg m)), st)
      else if negb (in_boundsb start H W) then
        (inl (ValueError "Start of {start} lies outside grid."
                         (PairArg start)), st)
      else if negb (in_boundsb goal H W) then
        (inl (ValueError "Goal of {goal} lies outside grid."
                         (PairArg goal)), st)
      else
        let data := elements st w in
        let l := fresh (dom (heap st)) in
        let out := astar data (Z.of_nat H) (Z.of_nat W) (flat_index start W)
                     (flat_index goal W) d ho tc in
        (inr out.1,
         World (<[l := out.2]> (<[l := data]> (heap st)))
               (calls st ++ [CoreCall data (Z.of_nat H) (Z.of_nat W)
                               (flat_index start W) (flat_index goal W)
                               d ho tc]))
  end.
Proof.
  intros Hd Hs. unfold astar_path.
  rewrite bind_run. unfold py_assert. rewrite Hd. simpl.
  rewrite bind_run. unfold ndarray_min at 1.
  destruct (minimum_reduce (elements st w)) as [m|] eqn:Em; [|reflexivity].
  rewrite bind_run. unfold raise_if at 1.
  destruct (SFltb m f32_one) eqn:Elt.
  { rewrite !bind_run. unfold ndarray_min. rewrite Em. reflexivity. }
  simpl.
  rewrite bind_run, (outside_grid_2d start w H W st Hs).
  rewrite bind_run. unfold raise_if at 1.
  destruct (negb (in_boundsb start H W)) eqn:Es; [reflexivity|].
  simpl.
  rewrite bind_run, (outside_grid_2d goal w H W st Hs).
  rewrite bind_run. unfold raise_if at 1.
  destruct (negb (in_boundsb goal H W)) eqn:Eg; [reflexivity|].
  simpl.
  rewrite bind_run, Hs. simpl.
  apply negb_false_iff in Es, Eg.
  rewrite bind_run, (ravel_multi_index_in_bounds _ _ _ _ Es).
  rewrite bind_run, (ravel_multi_index_in_bounds _ _ _ _ Eg).
  rewrite bind_run. unfold ndarray_flatten at 1.
  rewrite bind_run. unfold call_astar, buffer. simpl.
  rewrite lookup_insert_eq. simpl.
  destruct (astar _ _ _ _ _ _ _ _) as [r buf']. reflexivity.
Qed.

(** A validated input reaches the core: one call, on a fresh buffer. *)
Lemma astar_path_validated (astar : core_fn) (st : world) (w : ndarray)
    (start goal : Z * Z) (H W : nat) (d : bool) (ho : Z) (tc : spec_float) :
  validated st w start goal H W →
  astar_path astar w start goal d ho tc st =
  let data := elements st w in
  let l := fresh (dom (heap st)) in
  let out := astar data (Z.of_nat H) (Z.of_nat W) (flat_index start W)
               (flat_index goal W) d ho tc in
  (inr out.1,
   World (<[l := out.2]> (<[l := data]> (heap st)))
         (calls st ++ [CoreCall data (Z.of_nat H) (Z.of_nat W)
                         (flat_index start W) (flat_index goal W) d ho tc])).
Proof.
  intros (Hd & Hs & (m & Em & Elt) & Hstart & Hgoal).
  rewrite (astar_path_2d astar st w start goal H W d ho tc Hd Hs), Em, Elt.
  apply in_boundsb_spec in Hstart, Hgoal. rewrite Hstart, Hgoal. reflexivity.
Qed.

(** *** Every way the wrapper can end *)

Local Ltac unfold_wrapper :=
  unfold astar_path, py_assert, raise_if, ndarray_min, outside_grid, py_or,
    shape_getitem, unpack2, ravel_multi_index, ndarray_flatten, call_astar,
    buffer, raise;
  unfold mbind, M_bind, mret, M_ret.

Local Ltac walk :=
  intros; unfold_wrapper;
  repeat (simpl; match goal with E : _ = _ |- _ => rewrite E end);
  simpl; reflexivity.

Local Ltac raises_early :=
  left; eexists; split; [walk | intros ? [=]].

(** Either the wrapper raises, leaving the state as it was and whatever
    the core and the three options are, or the input is validated.  The
    cost error is raised only by the cost test. *)
Lemma astar_path_cases (st : world) (w : ndarray) (start goal : Z * Z) :
  (∃ e,
     (∀ astar d ho tc,
        astar_path astar w start goal d ho tc st = (inl e, st)) ∧
     (∀ x, e = ValueError "Minimum cost to move must be 1, but got %f" x →
        ∃ m, x = FloatArg m ∧ minimum_reduce (elements st w) = Some m ∧
             SFltb m f32_one = true)) ∨
  (∃ H W, validated st w start goal H W).
Proof.
  destruct (bool_decide (dtype w = float32)) eqn:Hd; [|raises_early].
  destruct (minimum_reduce (elements st w)) as [m|] eqn:Em; [|raises_early].
  destruct (SFltb m f32_one) eqn:Elt.
  { left; eexists; split.
    - intros. unfold_wrapper. rewrite Hd, Em, Elt, Em. reflexivity.
    - intros x [= <-]. by exists m. }
  destruct (shape w) as [|H [|W [|K shp]]] eqn:Hs.
  - destruct (start.1 <? 0) eqn:E1; raises_early.
  - destruct (start.1 <? 0) eqn:E1; [raises_early|].
    destruct (start.1 >=? Z.of_nat H) eqn:E2; [raises_early|].
    destruct (start.2 <? 0) eqn:E3; raises_early.
  - apply bool_decide_eq_true_1 in Hd.
    destruct (in_boundsb start H W) eqn:Es.
    + destruct (in_boundsb goal H W) eqn:Eg.
      * right. exists H, W.
        apply in_boundsb_spec in Es, Eg.
        split; [exact Hd|]. split; [exact Hs|].
        split; [by exists m|]. by split.
      * left; eexists; split;
          [intros;
           rewrite (astar_path_2d _ _ _ _ _ H W _ _ _ Hd Hs), Em, Elt, Es, Eg;
           reflexivity
          |intros ? [=]].
    + left; eexists; split;
        [intros;
         rewrite (astar_path_2d _ _ _ _ _ H W _ _ _ Hd Hs), Em, Elt, Es;
         reflexivity
        |intros ? [=]].
  - destruct (start.1 <? 0) eqn:E1; [raises_early|].
    destruct (start.1 >=? Z.of_nat H) eqn:E2; [raises_early|].
    destruct (start.2 <? 0) eqn:E3; [raises_early|].
    destruct (start.2 >=? Z.of_nat W) eqn:E4; [raises_early|].
    destruct (goal.1 <? 0) eqn:E5; [raises_early|].
    destruct (goal.1 >=? Z.of_nat H) eqn:E6; [raises_early|].
    destruct (goal.2 <? 0) eqn:E7; [raises_early|].
    destruct (goal.2 >=? Z.of_nat W) eqn:E8; raises_early.
Qed.

(** An input that raises is not a validated one. *)
Lemma raise_not_validated (astar : core_fn) (st : world) (w : ndarray)
    (start goal : Z * Z) (H W : nat) (d : bool) (ho : Z) (tc : spec_float)
    (e : exn) :
  fst (astar_path astar w start goal d ho tc st) = inl e →
  ¬ validated st w start goal H W.
Proof.
  intros He Hv.
  rewrite (astar_path_validated astar st w start goal H W d ho tc Hv) in He.
  discriminate He.
Qed.

(** The cost test fires as soon as the minimum is below one, whatever
    the shape. *)
Lemma astar_path_cost_error (astar : core_fn) (st : world) (w : ndarray)
    (start goal : Z * Z) (d : bool) (ho : Z) (tc : spec_float) (m : spec_float) :
  dtype w = float32 → minimum_reduce (elements st w) = Some m →
  SFltb m f32_one = true →
  astar_path astar w start goal d ho tc st =
  (inl (ValueError "Minimum cost to move must be 1, but got %f" (FloatArg m)), st).
Proof.
  intros Hd Em Elt. unfold_wrapper.
  rewrite (bool_decide_eq_true_2 _ Hd), Em, Elt, Em. reflexivity.
Qed.

(** X1: on a non-empty float32 array of any shape, and whatever start and
    goal are, the cost [ValueError] is raised exactly when no entry is a
    NaN and some entry is below one. *)
Lemma cost_error_iff (astar : core_fn) (st : world) (w : ndarray)
    (start goal : Z * Z) (d : bool) (ho : Z) (tc : spec_float) :
  dtype w = float32 → elements st w ≠ [] →
  (∃ x, fst (astar_path astar w start goal d ho tc st) =
        inl (ValueError "Minimum cost to move must be 1, but got %f" x)) ↔
  Forall (λ y, is_nan y = false) (elements st w) ∧
  ∃ y, y ∈ elements st w ∧ SFltb y f32_one = true.
Proof.
  intros Hd Hne. split.
  - intros [x Hx].
    destruct (astar_path_cases st w start goal) as [(e & Hrun & Hcost)|(H & W & Hv)].
    + rewrite Hrun in Hx. simpl in Hx. injection Hx as ->.
      destruct (Hcost x eq_refl) as (m & _ & Em & Elt).
      by apply (minimum_lt_one_iff _ m Em).
    + by apply raise_not_validated with (H := H) (W := W) in Hx.
  - intros Hbelow.
    destruct (minimum_reduce (elements st w)) as [m|] eqn:Em.
    + exists (FloatArg m).
      rewrite (astar_path_cost_error astar st w start goal d ho tc m Hd Em);
        [reflexivity|].
      by apply (minimum_lt_one_iff _ m Em).
    + destruct (elements st w); [done|discriminate Em].
Qed.

(** *** Sample runs *)

Example run_ok :
  fst (astar_path scribbling_core grid23 (0, 1) (0, 1) false 0 py_zero world23)
  = inr (Some [(0, 1)]).
Proof. vm_compute. reflexivity. Qed.

Example run_ok_log :
  calls (snd (astar_path scribbling_core grid23 (1, 2) (0, 1) true 7 f32_half world23))
  = [CoreCall [f32_one; f32_two; f32_one; f32_two; f32_one; f32_two]
              2 3 5 1 true 7 f32_half].
Proof. vm_compute. reflexivity. Qed.

Example run_start_outside :
  fst (astar_path scribbling_core grid23 (2, 0) (0, 7) false 0 py_zero world23)
  = inl (ValueError "Start of {start} lies outside grid." (PairArg (2, 0))).
Proof. vm_compute. reflexivity. Qed.


(** ** Properties of [astar_path] *)

Lemma world_nan_validated : validated world_nan grid_nan (0, 0) (0, 1) 1 2.
Proof.
  split; [reflexivity|]. split; [reflexivity|].
  split; [exists S754_nan; split; reflexivity|].
  split; unfold in_bounds; simpl; lia.
Qed.

(** C1: for a non-empty float32 array the wrapper is claimed to raise the
    cost [ValueError] if and only if some entry is strictly below 1.0.
    The code tests [weights.min() < 1.], and [min] propagates NaN: on the
    grid [[nan, 0.5]] the entry 0.5 is below one, yet no error is raised
    and the grid, with its 0.5, is handed to the core. *)
Theorem cost_check_misses_entry_below_one :
  f32_half ∈ elements world_nan grid_nan ∧
  SFltb f32_half f32_one = true ∧
  ∀ (astar : core_fn) (d : bool) (ho : Z) (tc : spec_float),
    fst (astar_path astar grid_nan (0, 0) (0, 1) d ho tc world_nan) =
      inr (fst (astar [S754_nan; f32_half] 1 2 0 1 d ho tc)) ∧
    calls (snd (astar_path astar grid_nan (0, 0) (0, 1) d ho tc world_nan)) =
      [CoreCall [S754_nan; f32_half] 1 2 0 1 d ho tc].
Proof.
  split; [|split].
  - vm_compute. apply list_elem_of_further, list_elem_of_here.
  - reflexivity.
  - intros astar d ho tc.
    rewrite (astar_path_validated astar _ _ _ _ _ _ d ho tc world_nan_validated).
    split; reflexivity.
Qed.

(** C8: when the dtype of [weights] is not [np.float32] the wrapper fails
    with an [AssertionError] that names the actual dtype, whatever the
    entries, the shape, start and goal are; the state is left as it was,
    so the core has not been called. *)
Theorem dtype_assertion_first (astar : core_fn) (st : world) (w : ndarray)
    (start goal : Z * Z) (d : bool) (ho : Z) (tc : spec_float) :
  dtype w ≠ float32 →
  astar_path astar w start goal d ho tc st =
  (inl (AssertionError
          "weights must have np.float32 data type, but has {weights.dtype}"
          (DtypeArg (dtype w))), st).
Proof.
  intros Hd. unfold_wrapper. rewrite (bool_decide_eq_false_2 _ Hd). reflexivity.
Qed.

Lemma dtype_assertion_first_witness :
  dtype grid23_f64 ≠ float32 ∧
  astar_path scribbling_core grid23_f64 (9, 9) (0, 0) false 0 py_zero world23 =
  (inl (AssertionError
          "weights must have np.float32 data type, but has {weights.dtype}"
          (DtypeArg float64)), world23).
Proof.
  split; [discriminate|].
  apply (dtype_assertion_first scribbling_core world23 grid23_f64). discriminate.
Defined.

(** C3: whenever the wrapper raises, the log of calls to the core is what
    it was before the call (and so is the store): no error path crosses
    the foreign boundary. *)
Theorem no_core_call_on_error (astar : core_fn) (st : world) (w : ndarray)
    (start goal : Z * Z) (d : bool) (ho : Z) (tc : spec_float) (e : exn) :
  fst (astar_path astar w start goal d ho tc st) = inl e →
  calls (snd (astar_path astar w start goal d ho tc st)) = calls st ∧
  heap (snd (astar_path astar w start goal d ho tc st)) = heap st.
Proof.
  intros He.
  destruct (astar_path_cases st w start goal) as [(e' & Hrun & _)|(H & W & Hv)].
  - rewrite Hrun. split; reflexivity.
  - by apply raise_not_validated with (H := H) (W := W) in He.
Qed.

Lemma no_core_call_on_error_witness :
  calls (snd (astar_path scribbling_core grid23 (2, 0) (0, 7) false 0 py_zero
                world23)) = calls world23 ∧
  heap (snd (astar_path scribbling_core grid23 (2, 0) (0, 7) false 0 py_zero
               world23)) = heap world23.
Proof.
  apply (no_core_call_on_error scribbling_core world23 grid23 (2, 0) (0, 7)
           false 0 py_zero
           (ValueError "Start of {start} lies outside grid." (PairArg (2, 0)))).
  vm_compute. reflexivity.
Defined.

(** C9: the wrapper never mutates its [weights] argument.  Every buffer of
    the store keeps its contents, whatever the core writes into the buffer
    it is given, so the buffer and the elements of [weights] are the same
    before and after the call, on every outcome. *)
Theorem weights_not_mutated (astar : core_fn) (st : world) (w : ndarray)
    (start goal : Z * Z) (d : bool) (ho : Z) (tc : spec_float) :
  is_Some (heap st !! base w) →
  buffer (snd (astar_path astar w start goal d ho tc st)) w = buffer st w ∧
  elements (snd (astar_path astar w start goal d ho tc st)) w = elements st w ∧
  ∀ (l : loc) (buf : list spec_float),
    heap st !! l = Some buf →
    heap (snd (astar_path astar w start goal d ho tc st)) !! l = Some buf.
Proof.
  intros [b Hb].
  assert (Hframe : ∀ (l : loc) (buf : list spec_float),
    heap st !! l = Some buf →
    heap (snd (astar_path astar w start goal d ho tc st)) !! l = Some buf).
  { intros l buf Hl.
    destruct (astar_path_cases st w start goal) as [(e & Hrun & _)|(H & W & Hv)].
    - rewrite Hrun. exact Hl.
    - rewrite (astar_path_validated astar st w start goal H W d ho tc Hv). simpl.
      assert (Hne : fresh (dom (heap st)) ≠ l).
      { intros <-. apply (is_fresh (dom (heap st))).
        apply elem_of_dom. by exists buf. }
      by rewrite !lookup_insert_ne. }
  assert (Hbuf : buffer (snd (astar_path astar w start goal d ho tc st)) w
                 = buffer st w).
  { unfold buffer. by rewrite (Hframe _ _ Hb), Hb. }
  split; [exact Hbuf|]. split; [|exact Hframe].
  unfold elements. by rewrite Hbuf.
Qed.

Lemma weights_not_mutated_witness :
  elements (snd (astar_path scribbling_core grid23 (1, 2) (0, 1) true 0 py_zero
                   world23)) grid23
  = [f32_one; f32_two; f32_one; f32_two; f32_one; f32_two].
Proof.
  rewrite (proj1 (proj2 (weights_not_mutated scribbling_core world23 grid23
                           (1, 2) (0, 1) true 0 py_zero
                           (ex_intro _ _ eq_refl)))).
  reflexivity.
Defined.

(** C10: the wrapper performs no validation of [allow_diagonal],
    [heuristic_override] and [tiebreaker_coefficient].  An error raised
    with one choice of the three is raised with every other choice, and
    an input accepted with one choice is accepted with every other one,
    the core being called with exactly the three values given. *)
Theorem options_passed_unchecked (astar : core_fn) (st : world) (w : ndarray)
    (start goal : Z * Z) (d : bool) (ho : Z) (tc : spec_float) :
  (∀ e, fst (astar_path astar w start goal d ho tc st) = inl e →
     ∀ d' ho' tc', fst (astar_path astar w start goal d' ho' tc' st) = inl e) ∧
  (∀ r, fst (astar_path astar w start goal d ho tc st) = inr r →
     ∀ d' ho' tc', ∃ r' c,
       fst (astar_path astar w start goal d' ho' tc' st) = inr r' ∧
       calls (snd (astar_path astar w start goal d' ho' tc' st)) =
         calls st ++ [c] ∧
       cc_allow_diagonal c = d' ∧ cc_heuristic_override c = ho' ∧
       cc_tiebreaker_coefficient c = tc').
Proof.
  destruct (astar_path_cases st w start goal) as [(e & Hrun & _)|(H & W & Hv)].
  - split.
    + intros e' He' d' ho' tc'. rewrite Hrun in He' |- *. exact He'.
    + intros r Hr. rewrite Hrun in Hr. discriminate Hr.
  - split.
    + intros e He. by apply raise_not_validated with (H := H) (W := W) in He.
    + intros r _ d' ho' tc'.
      rewrite (astar_path_validated astar st w start goal H W d' ho' tc' Hv).
      simpl. eexists _, _. repeat split; reflexivity.
Qed.

Lemma options_passed_unchecked_witness :
  ∃ r' c,
    fst (astar_path scribbling_core grid23 (0, 1) (0, 1) true 99 py_minus_one
           world23) = inr r' ∧
    calls (snd (astar_path scribbling_core grid23 (0, 1) (0, 1) true 99
                  py_minus_one world23)) = calls world23 ++ [c] ∧
    cc_allow_diagonal c = true ∧ cc_heuristic_override c = 99 ∧
    cc_tiebreaker_coefficient c = py_minus_one.
Proof.
  apply (proj2 (options_passed_unchecked scribbling_core world23 grid23
                  (0, 1) (0, 1) false 0 py_zero) (Some [(0, 1)])).
  vm_compute. reflexivity.
Defined.

Lemma world23_validated : validated world23 grid23 (1, 2) (0, 1) 2 3.
Proof.
  split; [reflexivity|]. split; [reflexivity|].
  split; [exists f32_one; split; reflexivity|].
  split; unfold in_bounds; simpl; lia.
Defined.

Lemma world23_F_validated : validated world23_F grid23_F (1, 2) (0, 1) 2 3.
Proof.
  split; [reflexivity|]. split; [reflexivity|].
  split; [exists f32_one; split; reflexivity|].
  split; unfold in_bounds; simpl; lia.
Defined.

(** C6: on an input that passes validation the wrapper returns exactly
    what the core returns on the marshalled arguments, a path or [None],
    and raises nothing. *)
Theorem returns_core_result (astar : core_fn) (st : world) (w : ndarray)
    (start goal : Z * Z) (H W : nat) (d : bool) (ho : Z) (tc : spec_float) :
  validated st w start goal H W →
  fst (astar_path astar w start goal d ho tc st) =
    inr (fst (astar (elements st w) (Z.of_nat H) (Z.of_nat W)
                (start.1 * Z.of_nat W + start.2)
                (goal.1 * Z.of_nat W + goal.2) d ho tc)) ∧
  ∀ e, fst (astar_path astar w start goal d ho tc st) ≠ inl e.
Proof.
  intros Hv.
  rewrite (astar_path_validated astar st w start goal H W d ho tc Hv).
  split; [reflexivity|]. intros e [=].
Qed.

Lemma returns_core_result_witness :
  fst (astar_path scribbling_core grid23 (1, 2) (0, 1) false 0 py_zero world23)
  = inr None.
Proof.
  rewrite (proj1 (returns_core_result scribbling_core world23 grid23 (1, 2)
                    (0, 1) 2 3 false 0 py_zero world23_validated)).
  reflexivity.
Defined.

(** C4: on an input that passes validation the core is called with the
    flat indices [start[0]*W + start[1]] and [goal[0]*W + goal[1]]; each
    lies in [0, H*W) and gives the pair back through [idx / W],
    [idx % W].  Conversely every index of [0, H*W) is the flat index of
    the in-bounds pair [(idx / W, idx % W)]. *)
Theorem flat_indices_passed (astar : core_fn) (st : world) (w : ndarray)
    (start goal : Z * Z) (H W : nat) (d : bool) (ho : Z) (tc : spec_float) :
  validated st w start goal H W →
  (∃ c, calls (snd (astar_path astar w start goal d ho tc st)) =
          calls st ++ [c] ∧
        cc_height c = Z.of_nat H ∧ cc_width c = Z.of_nat W ∧
        cc_start c = start.1 * Z.of_nat W + start.2 ∧
        cc_goal c = goal.1 * Z.of_nat W + goal.2 ∧
        0 ≤ cc_start c < Z.of_nat H * Z.of_nat W ∧
        0 ≤ cc_goal c < Z.of_nat H * Z.of_nat W ∧
        (cc_start c / Z.of_nat W, cc_start c mod Z.of_nat W) = start ∧
        (cc_goal c / Z.of_nat W, cc_goal c mod Z.of_nat W) = goal) ∧
  (∀ idx, 0 ≤ idx < Z.of_nat H * Z.of_nat W →
     in_bounds (idx / Z.of_nat W, idx mod Z.of_nat W) H W ∧
     ravel_multi_index (idx / Z.of_nat W, idx mod Z.of_nat W)
       (Z.of_nat H, Z.of_nat W) st = (inr idx, st)).
Proof.
  intros Hv. split.
  - rewrite (astar_path_validated astar st w start goal H W d ho tc Hv).
    destruct Hv as (_ & _ & _ & Hstart & Hgoal).
    destruct start as [r c], goal as [r' c']. unfold in_bounds in *.
    simpl in *. eexists. split; [reflexivity|]. unfold flat_index. simpl.
    repeat split; try reflexivity; try nia.
    + rewrite Z.div_add_l, Z.div_small, Z.add_0_r by lia.
      rewrite Z.add_comm, Z.mod_add, Z.mod_small by lia. reflexivity.
    + rewrite Z.div_add_l, Z.div_small, Z.add_0_r by lia.
      rewrite Z.add_comm, Z.mod_add, Z.mod_small by lia. reflexivity.
  - intros idx Hidx.
    assert (HW : 0 < Z.of_nat W) by nia.
    assert (Hin : in_bounds (idx / Z.of_nat W, idx mod Z.of_nat W) H W).
    { unfold in_bounds. simpl.
      pose proof (Z.mod_pos_bound idx (Z.of_nat W) HW).
      split; [|lia]. split.
      - apply Z.div_pos; lia.
      - apply Z.div_lt_upper_bound; lia. }
    split; [exact Hin|].
    rewrite ravel_multi_index_in_bounds by (by apply in_boundsb_spec).
    unfold flat_index. simpl. do 2 f_equal.
    rewrite (Z.div_mod idx (Z.of_nat W)) at 3 by lia. lia.
Qed.

Lemma flat_indices_passed_witness :
  ∃ c, calls (snd (astar_path scribbling_core grid23 (1, 2) (0, 1) false 0
                     py_zero world23)) = calls world23 ++ [c] ∧
       cc_height c = 2 ∧ cc_width c = 3 ∧
       cc_start c = 1 * 3 + 2 ∧ cc_goal c = 0 * 3 + 1 ∧
       0 ≤ cc_start c < 2 * 3 ∧ 0 ≤ cc_goal c < 2 * 3 ∧
       (cc_start c / 3, cc_start c mod 3) = (1, 2) ∧
       (cc_goal c / 3, cc_goal c mod 3) = (0, 1).
Proof.
  exact (proj1 (flat_indices_passed scribbling_core world23 grid23 (1, 2)
                  (0, 1) 2 3 false 0 py_zero world23_validated)).
Defined.

(** C5: on an input that passes validation the array handed to the core
    is the row-major flattening of [weights]: its length is [H*W] and its
    element at [r*W + c] is [weights[r][c]], whatever the strides of
    [weights] are. *)
Theorem flattened_weights_passed (astar : core_fn) (st : world) (w : ndarray)
    (start goal : Z * Z) (H W : nat) (d : bool) (ho : Z) (tc : spec_float) :
  validated st w start goal H W →
  ∃ c, calls (snd (astar_path astar w start goal d ho tc st)) =
         calls st ++ [c] ∧
       length (cc_weights c) = (H * W)%nat ∧
       ∀ r k : nat, (r < H)%nat → (k < W)%nat →
         cc_weights c !! (r * W + k)%nat = Some (getitem2 (buffer st w) w r k).
Proof.
  intros Hv.
  rewrite (astar_path_validated astar st w start goal H W d ho tc Hv).
  destruct Hv as (_ & Hs & _). simpl.
  eexists. split; [reflexivity|]. simpl. unfold elements. rewrite Hs. split.
  - rewrite length_gather. simpl. lia.
  - intros r k Hr Hk. by apply lookup_gather_2d.
Qed.

Lemma flattened_weights_passed_witness :
  ∃ c, calls (snd (astar_path scribbling_core grid23_F (1, 2) (0, 1) false 0
                     py_zero world23_F)) = calls world23_F ++ [c] ∧
       length (cc_weights c) = (2 * 3)%nat ∧
       ∀ r k : nat, (r < 2)%nat → (k < 3)%nat →
         cc_weights c !! (r * 3 + k)%nat
         = Some (getitem2 (buffer world23_F grid23_F) grid23_F r k).
Proof.
  exact (flattened_weights_passed scribbling_core world23_F grid23_F (1, 2)
           (0, 1) 2 3 false 0 py_zero world23_F_validated).
Defined.

Example flattened_F :
  calls (snd (astar_path scribbling_core grid23_F (1, 2) (0, 1) false 0 py_zero
                world23_F))
  = [CoreCall [f32_one] 1 1 0 0 false 0 py_zero;
     CoreCall [f32_one; f32_two; f32_one; f32_two; f32_one; f32_two]
              2 3 5 1 false 0 py_zero].
Proof. vm_compute. reflexivity. Qed.

(** C2: for a float32 array of shape (H, W) whose entries are all at
    least 1.0, the wrapper raises a [ValueError] if and only if start or
    goal is out of bounds.  On a non-empty grid the start check comes
    first: an out-of-bounds start gives the start message whatever goal
    is, and the goal message is given when start is in bounds and goal is
    not; the two messages differ and each carries the offending pair.  On
    an empty grid the [ValueError] is the zero-size error of
    [weights.min()], raised before either check. *)
Theorem bounds_errors (astar : core_fn) (st : world) (w : ndarray)
    (start goal : Z * Z) (H W : nat) (d : bool) (ho : Z) (tc : spec_float) :
  dtype w = float32 → shape w = [H; W] →
  Forall (λ x, SFleb f32_one x = true) (elements st w) →
  ((∃ msg arg, fst (astar_path astar w start goal d ho tc st) =
               inl (ValueError msg arg)) ↔
   ¬ in_bounds start H W ∨ ¬ in_bounds goal H W) ∧
  ((0 < H * W)%nat → ¬ in_bounds start H W →
   fst (astar_path astar w start goal d ho tc st) =
   inl (ValueError "Start of {start} lies outside grid." (PairArg start))) ∧
  (in_bounds start H W → ¬ in_bounds goal H W →
   fst (astar_path astar w start goal d ho tc st) =
   inl (ValueError "Goal of {goal} lies outside grid." (PairArg goal))) ∧
  ((H * W = 0)%nat →
   fst (astar_path astar w start goal d ho tc st) =
   inl (ValueError
          "zero-size array to reduction operation minimum which has no identity"
          NoArg)) ∧
  "Start of {start} lies outside grid." ≠ "Goal of {goal} lies outside grid.".
Proof.
  intros Hd Hs Hall.
  rewrite (astar_path_2d astar st w start goal H W d ho tc Hd Hs).
  assert (Hlen : length (elements st w) = (H * W)%nat).
  { unfold elements. rewrite Hs, length_gather. simpl. lia. }
  destruct (minimum_reduce (elements st w)) as [m|] eqn:Em.
  - assert (Hpos : (0 < H * W)%nat).
    { destruct (elements st w); [discriminate Em|]. simpl in Hlen. lia. }
    rewrite (minimum_ge_one _ m Hall Em).
    destruct (in_boundsb start H W) eqn:Es; simpl.
    + apply in_boundsb_spec in Es.
      destruct (in_boundsb goal H W) eqn:Eg; simpl.
      * apply in_boundsb_spec in Eg.
        split; [|split; [|split; [|split]]]; try done; try lia.
        split; [intros (msg & arg & [=])|intros [?|?]; done].
      * assert (Hg : ¬ in_bounds goal H W).
        { intros Hg. apply in_boundsb_spec in Hg. congruence. }
        split; [|split; [|split; [|split]]]; try done; try lia.
        split; [by right|intros _; by eexists _, _].
    + assert (Hst : ¬ in_bounds start H W).
      { intros Hst. apply in_boundsb_spec in Hst. congruence. }
      split; [|split; [|split; [|split]]]; try done; try lia.
      split; [by left|intros _; by eexists _, _].
  - destruct (elements st w) as [|x xs]; [|discriminate Em].
    simpl in Hlen.
    assert (Hst : ¬ in_bounds start H W) by (unfold in_bounds; nia).
    split; [|split; [|split; [|split]]]; try done.
    + split; [by left|intros _; by eexists _, _].
    + lia.
Qed.

Lemma bounds_errors_witness :
  fst (astar_path scribbling_core grid23 (2, 0) (0, 7) false 0 py_zero world23) =
    inl (ValueError "Start of {start} lies outside grid." (PairArg (2, 0))) ∧
  fst (astar_path scribbling_core grid23 (1, 0) (0, 7) false 0 py_zero world23) =
    inl (ValueError "Goal of {goal} lies outside grid." (PairArg (0, 7))).
Proof.
  split.
  - apply (bounds_errors scribbling_core world23 grid23 (2, 0) (0, 7) 2 3
             false 0 py_zero); try reflexivity.
    + vm_compute. repeat constructor.
    + simpl. lia.
    + unfold in_bounds. simpl. lia.
  - apply (bounds_errors scribbling_core world23 grid23 (1, 0) (0, 7) 2 3
             false 0 py_zero); try reflexivity.
    + vm_compute. repeat constructor.
    + unfold in_bounds. simpl. lia.
    + unfold in_bounds. simpl. lia.
Defined.

(** C2 on an empty grid: the float32 grid with no rows has all its
    entries at least 1.0, vacuously, and (0, 0) is out of its bounds; yet
    the error raised is not the start message but the zero-size error of
    [weights.min()]. *)
Lemma bounds_errors_counterexample :
  dtype grid03 = float32 ∧ shape grid03 = [0%nat; 3%nat] ∧
  Forall (λ x, SFleb f32_one x = true) (elements world23 grid03) ∧
  ¬ in_bounds (0, 0) 0 3 ∧
  fst (astar_path scribbling_core grid03 (0, 0) (0, 0) false 0 py_zero world23) =
    inl (ValueError
           "zero-size array to reduction operation minimum which has no identity"
           NoArg) ∧
  fst (astar_path scribbling_core grid03 (0, 0) (0, 0) false 0 py_zero world23) ≠
    inl (ValueError "Start of {start} lies outside grid." (PairArg (0, 0))).
Proof.
  split; [reflexivity|]. split; [reflexivity|].
  split; [vm_compute; constructor|].
  split; [unfold in_bounds; simpl; lia|].
  split; [vm_compute; reflexivity|].
  vm_compute. discriminate.
Qed.

(** ** Further properties of [astar_path] *)

(** *** The cost check *)

Lemma SFltb_false_SFleb (a b : spec_float) :
  is_nan a = false → is_nan b = false →
  SFltb a b = false → SFleb b a = true.
Proof.
  unfold SFltb, SFleb. intros Ha Hb. rewrite (SFcompare_antisym a b).
  destruct (SFcompare a b) as [[]|] eqn:E; simpl; try reflexivity;
    try discriminate.
  destruct a, b; discriminate.
Qed.

Lemma world_cheap_elements :
  elements world_cheap grid_cheap = [f32_one; f32_half; f32_two; f32_one].
Proof. reflexivity. Qed.

Lemma cost_error_iff_witness :
  ∃ x, fst (astar_path scribbling_core grid_cheap (7, 7) (0, 0) false 0 py_zero
              world_cheap) =
       inl (ValueError "Minimum cost to move must be 1, but got %f" x).
Proof.
  apply (cost_error_iff scribbling_core world_cheap grid_cheap (7, 7)
           (0, 0) false 0 py_zero).
  - reflexivity.
  - rewrite world_cheap_elements. discriminate.
  - rewrite world_cheap_elements. split.
    + repeat constructor.
    + exists f32_half. split; [|reflexivity].
      apply list_elem_of_further, list_elem_of_here.
Defined.

(** X2: the value reported by the cost error is the minimum of the grid:
    it is an entry of [weights], it is below one, and no entry is
    smaller. *)
Theorem cost_error_reports_minimum (astar : core_fn) (st : world)
    (w : ndarray) (start goal : Z * Z) (d : bool) (ho : Z) (tc : spec_float)
    (x : fmt_arg) :
  fst (astar_path astar w start goal d ho tc st) =
    inl (ValueError "Minimum cost to move must be 1, but got %f" x) →
  ∃ m, x = FloatArg m ∧ m ∈ elements st w ∧ SFltb m f32_one = true ∧
       Forall (λ y, SFleb m y = true) (elements st w).
Proof.
  intros Hx.
  destruct (astar_path_cases st w start goal) as [(e & Hrun & Hcost)|(H & W & Hv)].
  - rewrite Hrun in Hx. simpl in Hx. injection Hx as ->.
    destruct (Hcost x eq_refl) as (m & -> & Em & Elt).
    exists m. split; [reflexivity|].
    destruct (proj1 (minimum_lt_one_iff _ m Em) Elt) as [Hn _].
    destruct (elements st w) as [|y ys]; [discriminate Em|].
    simpl in Em. injection Em as <-.
    split; [apply fold_minimum_elem|]. split; [exact Elt|].
    by apply fold_minimum_le.
  - by apply raise_not_validated with (H := H) (W := W) in Hx.
Qed.

Lemma cost_error_reports_minimum_witness :
  ∃ m, FloatArg f32_half = FloatArg m ∧
       m ∈ elements world_cheap grid_cheap ∧ SFltb m f32_one = true ∧
       Forall (λ y, SFleb m y = true) (elements world_cheap grid_cheap).
Proof.
  apply (cost_error_reports_minimum scribbling_core world_cheap grid_cheap
           (0, 0) (1, 1) false 0 py_zero (FloatArg f32_half)).
  vm_compute. reflexivity.
Defined.

(** X3: a NaN anywhere in a float32 grid switches the cost check off: with
    start and goal in bounds the grid is accepted and handed to the core,
    whatever its other entries are. *)
Theorem nan_grid_accepted (astar : core_fn) (st : world) (w : ndarray)
    (start goal : Z * Z) (H W : nat) (d : bool) (ho : Z) (tc : spec_float) :
  dtype w = float32 → shape w = [H; W] →
  S754_nan ∈ elements st w →
  in_bounds start H W → in_bounds goal H W →
  validated st w start goal H W ∧
  fst (astar_path astar w start goal d ho tc st) =
    inr (fst (astar (elements st w) (Z.of_nat H) (Z.of_nat W)
                (start.1 * Z.of_nat W + start.2)
                (goal.1 * Z.of_nat W + goal.2) d ho tc)).
Proof.
  intros Hd Hs Hnan Hstart Hgoal.
  assert (Hv : validated st w start goal H W).
  { split; [exact Hd|]. split; [exact Hs|]. split; [|by split].
    exists S754_nan. split; [|reflexivity].
    destruct (elements st w) as [|y ys].
    - by apply elem_of_nil in Hnan.
    - simpl. f_equal. by apply fold_minimum_nan. }
  split; [exact Hv|].
  by rewrite (astar_path_validated astar st w start goal H W d ho tc Hv).
Qed.

Lemma nan_grid_accepted_witness :
  validated world_nan grid_nan (0, 0) (0, 1) 1 2 ∧
  fst (astar_path scribbling_core grid_nan (0, 0) (0, 1) false 0 py_zero
         world_nan) =
    inr (fst (scribbling_core (elements world_nan grid_nan) 1 2
                (0 * 2 + 0) (0 * 2 + 1) false 0 py_zero)).
Proof.
  apply (nan_grid_accepted scribbling_core world_nan grid_nan (0, 0) (0, 1)
           1 2 false 0 py_zero); try reflexivity.
  - vm_compute. apply list_elem_of_here.
  - unfold in_bounds. simpl. lia.
  - unfold in_bounds. simpl. lia.
Defined.

(** X4: on a grid without NaN the cost check is sound: every weight of a
    call that reaches the core is at least one. *)
Theorem core_weights_at_least_one (astar : core_fn) (st : world)
    (w : ndarray) (start goal : Z * Z) (d : bool) (ho : Z) (tc : spec_float)
    (c : core_call) :
  Forall (λ y, is_nan y = false) (elements st w) →
  calls (snd (astar_path astar w start goal d ho tc st)) = calls st ++ [c] →
  Forall (λ y, SFleb f32_one y = true) (cc_weights c).
Proof.
  intros Hn Hc.
  destruct (astar_path_cases st w start goal) as [(e & Hrun & _)|(H & W & Hv)].
  - rewrite Hrun in Hc. simpl in Hc.
    rewrite <- (app_nil_r (calls st)) in Hc at 1.
    apply app_inv_head in Hc. discriminate Hc.
  - rewrite (astar_path_validated astar st w start goal H W d ho tc Hv) in Hc.
    simpl in Hc. apply app_inv_head in Hc. injection Hc as <-. simpl.
    destruct Hv as (_ & _ & (m & Em & Elt) & _).
    destruct (elements st w) as [|y ys] eqn:Ee; [discriminate Em|].
    simpl in Em. injection Em as <-.
    pose proof (fold_minimum_le ys y Hn) as Hle.
    assert (Hm : is_nan (fold_left np_minimum ys y) = false).
    { rewrite Forall_forall in Hn. apply Hn, fold_minimum_elem. }
    assert (H1 : SFleb f32_one (fold_left np_minimum ys y) = true)
      by (by apply SFltb_false_SFleb).
    eapply Forall_impl; [exact Hle|].
    intros z Hz. simpl in Hz. by eapply SFleb_trans.
Qed.

Lemma core_weights_at_least_one_witness :
  Forall (λ y, SFleb f32_one y = true)
    [f32_one; f32_two; f32_one; f32_two; f32_one; f32_two].
Proof.
  apply (core_weights_at_least_one scribbling_core world23 grid23 (1, 2) (0, 1)
           false 0 py_zero
           (CoreCall [f32_one; f32_two; f32_one; f32_two; f32_one; f32_two]
                     2 3 5 1 false 0 py_zero)).
  - vm_compute. repeat constructor.
  - vm_compute. reflexivity.
Defined.

(** *** Shapes the wrapper does not accept *)

(** X5: a float32 array with no elements (some dimension is zero) is
    rejected by [weights.min()] itself, with NumPy's zero-size error,
    before any bounds check and whatever start and goal are. *)
Theorem empty_grid_rejected (astar : core_fn) (st : world) (w : ndarray)
    (start goal : Z * Z) (d : bool) (ho : Z) (tc : spec_float) :
  dtype w = float32 → size_of (shape w) = 0%nat →
  astar_path astar w start goal d ho tc st =
  (inl (ValueError
          "zero-size array to reduction operation minimum which has no identity"
          NoArg), st).
Proof.
  intros Hd Hz.
  assert (He : elements st w = []).
  { apply length_zero_iff_nil. unfold elements. by rewrite length_gather. }
  unfold_wrapper. rewrite (bool_decide_eq_true_2 _ Hd), He. reflexivity.
Qed.

Lemma empty_grid_rejected_witness :
  astar_path scribbling_core grid03 (0, 0) (5, 5) false 0 py_zero world23 =
  (inl (ValueError
          "zero-size array to reduction operation minimum which has no identity"
          NoArg), world23).
Proof.
  apply (empty_grid_rejected scribbling_core world23 grid03); reflexivity.
Defined.

(** X6: a one-dimensional float32 array that passes the cost check never
    reaches the core: when [start[0]] is a valid index and [start[1]] is
    not negative, reading [weights.shape[1]] raises [IndexError]. *)
Theorem one_dimensional_grid_index_error (astar : core_fn) (st : world)
    (w : ndarray) (start goal : Z * Z) (n : nat) (d : bool) (ho : Z)
    (tc : spec_float) :
  dtype w = float32 → shape w = [n] →
  cost_check_passes (elements st w) →
  0 ≤ start.1 < Z.of_nat n → 0 ≤ start.2 →
  astar_path astar w start goal d ho tc st =
  (inl (IndexError "tuple index out of range" NoArg), st).
Proof.
  intros Hd Hs (m & Em & Elt) H1 H2. unfold_wrapper.
  rewrite (bool_decide_eq_true_2 _ Hd), Em, Elt, Hs. simpl.
  destruct (Z.ltb_spec start.1 0); [lia|]. simpl.
  destruct (Z.geb_spec start.1 (Z.of_nat n)); [lia|]. simpl.
  destruct (Z.ltb_spec start.2 0); [lia|]. reflexivity.
Qed.

Lemma one_dimensional_grid_index_error_witness :
  astar_path scribbling_core row6 (2, 0) (3, 0) false 0 py_zero world23 =
  (inl (IndexError "tuple index out of range" NoArg), world23).
Proof.
  apply (one_dimensional_grid_index_error scribbling_core world23 row6 (2, 0)
           (3, 0) 6);
    [reflexivity | reflexivity | exists f32_one; split; reflexivity
    | simpl; lia | simpl; lia].
Defined.

(** X7: an array of three or more dimensions that passes the cost check,
    with start and goal inside its first two dimensions, never reaches the
    core: unpacking [weights.shape] into two names raises [ValueError]. *)
Theorem many_dimensional_grid_unpack_error (astar : core_fn) (st : world)
    (w : ndarray) (start goal : Z * Z) (H W K : nat) (rest : list nat)
    (d : bool) (ho : Z) (tc : spec_float) :
  dtype w = float32 → shape w = H :: W :: K :: rest →
  cost_check_passes (elements st w) →
  in_bounds start H W → in_bounds goal H W →
  astar_path astar w start goal d ho tc st =
  (inl (ValueError "too many values to unpack (expected 2)" NoArg), st).
Proof.
  intros Hd Hs (m & Em & Elt) [Hs1 Hs2] [Hg1 Hg2]. unfold_wrapper.
  rewrite (bool_decide_eq_true_2 _ Hd), Em, Elt, Hs. simpl.
  destruct (Z.ltb_spec start.1 0); [lia|]. simpl.
  destruct (Z.geb_spec start.1 (Z.of_nat H)); [lia|]. simpl.
  destruct (Z.ltb_spec start.2 0); [lia|]. simpl.
  destruct (Z.geb_spec start.2 (Z.of_nat W)); [lia|]. simpl.
  destruct (Z.ltb_spec goal.1 0); [lia|]. simpl.
  destruct (Z.geb_spec goal.1 (Z.of_nat H)); [lia|]. simpl.
  destruct (Z.ltb_spec goal.2 0); [lia|]. simpl.
  destruct (Z.geb_spec goal.2 (Z.of_nat W)); [lia|]. reflexivity.
Qed.

Lemma many_dimensional_grid_unpack_error_witness :
  astar_path scribbling_core cube123 (0, 1) (0, 0) false 0 py_zero world23 =
  (inl (ValueError "too many values to unpack (expected 2)" NoArg), world23).
Proof.
  apply (many_dimensional_grid_unpack_error scribbling_core world23 cube123
           (0, 1) (0, 0) 1 2 3 []); try reflexivity.
  - exists f32_one. split; reflexivity.
  - unfold in_bounds. simpl. lia.
  - unfold in_bounds. simpl. lia.
Defined.

(** *** What a return and a raise tell the caller *)

(** X8: the wrapper returns a value only on a validated input: the dtype
    is float32, the array is two-dimensional, the cost check has passed
    and both start and goal are in bounds. *)
Theorem returns_only_if_validated (astar : core_fn) (st : world)
    (w : ndarray) (start goal : Z * Z) (d : bool) (ho : Z) (tc : spec_float)
    (r : option path) :
  fst (astar_path astar w start goal d ho tc st) = inr r →
  ∃ H W, validated st w start goal H W.
Proof.
  intros Hr.
  destruct (astar_path_cases st w start goal) as [(e & Hrun & _)|Hv];
    [|exact Hv].
  rewrite Hrun in Hr. discriminate Hr.
Qed.

Lemma returns_only_if_validated_witness :
  ∃ H W, validated world23 grid23 (0, 1) (0, 1) H W.
Proof.
  apply (returns_only_if_validated scribbling_core world23 grid23 (0, 1) (0, 1)
           false 0 py_zero (Some [(0, 1)])).
  vm_compute. reflexivity.
Defined.

(** X9: the exceptions of the wrapper are these seven and no other; in
    particular [np.ravel_multi_index] never rejects the pairs it is given
    and the unpacking of the shape never finds too few values. *)
Theorem raised_exceptions (astar : core_fn) (st : world) (w : ndarray)
    (start goal : Z * Z) (d : bool) (ho : Z) (tc : spec_float) (e : exn) :
  fst (astar_path astar w start goal d ho tc st) = inl e →
  e = AssertionError
        "weights must have np.float32 data type, but has {weights.dtype}"
        (DtypeArg (dtype w)) ∨
  e = ValueError
        "zero-size array to reduction operation minimum which has no identity"
        NoArg ∨
  (∃ m, e = ValueError "Minimum cost to move must be 1, but got %f"
                       (FloatArg m)) ∨
  e = ValueError "Start of {start} lies outside grid." (PairArg start) ∨
  e = ValueError "Goal of {goal} lies outside grid." (PairArg goal) ∨
  e = IndexError "tuple index out of range" NoArg ∨
  e = ValueError "too many values to unpack (expected 2)" NoArg.
Proof.
  destruct (decide (dtype w = float32)) as [Hd|Hd].
  2:{ unfold_wrapper. rewrite (bool_decide_eq_false_2 _ Hd). simpl.
      intros [= <-]. by left. }
  destruct (minimum_reduce (elements st w)) as [m|] eqn:Em.
  2:{ unfold_wrapper. rewrite (bool_decide_eq_true_2 _ Hd), Em. simpl.
      intros [= <-]. right. by left. }
  destruct (SFltb m f32_one) eqn:Elt.
  { rewrite (astar_path_cost_error astar st w start goal d ho tc m Hd Em Elt).
    simpl. intros [= <-]. do 2 right. left. by exists m. }
  unfold_wrapper. rewrite (bool_decide_eq_true_2 _ Hd), Em, Elt. simpl.
  destruct (Z.ltb_spec start.1 0); simpl; [intros [= <-]; tauto|].
  destruct (shape w) as [|nh shp]; simpl; [intros [= <-]; tauto|].
  destruct (Z.geb_spec start.1 (Z.of_nat nh)); simpl; [intros [= <-]; tauto|].
  destruct (Z.ltb_spec start.2 0); simpl; [intros [= <-]; tauto|].
  destruct shp as [|nw shp]; simpl; [intros [= <-]; tauto|].
  destruct (Z.geb_spec start.2 (Z.of_nat nw)); simpl; [intros [= <-]; tauto|].
  destruct (Z.ltb_spec goal.1 0); simpl; [intros [= <-]; tauto|].
  destruct (Z.geb_spec goal.1 (Z.of_nat nh)); simpl; [intros [= <-]; tauto|].
  destruct (Z.ltb_spec goal.2 0); simpl; [intros [= <-]; tauto|].
  destruct (Z.geb_spec goal.2 (Z.of_nat nw)); simpl; [intros [= <-]; tauto|].
  destruct shp as [|K shp]; simpl; [|intros [= <-]; tauto].
  assert (Es : in_boundsb start nh nw = true)
    by (apply in_boundsb_spec; unfold in_bounds; lia).
  assert (Eg : in_boundsb goal nh nw = true)
    by (apply in_boundsb_spec; unfold in_bounds; lia).
  unfold in_boundsb in Es, Eg. rewrite Es, Eg. simpl.
  destruct (astar _ _ _ _ _ _ _ _) as [r buf']. intros [=].
Qed.

Lemma raised_exceptions_witness :
  ValueError "Goal of {goal} lies outside grid." (PairArg (0, 7)) =
    AssertionError
      "weights must have np.float32 data type, but has {weights.dtype}"
      (DtypeArg (dtype grid23)) ∨
  ValueError "Goal of {goal} lies outside grid." (PairArg (0, 7)) =
    ValueError
      "zero-size array to reduction operation minimum which has no identity"
      NoArg ∨
  (∃ m, ValueError "Goal of {goal} lies outside grid." (PairArg (0, 7)) =
        ValueError "Minimum cost to move must be 1, but got %f" (FloatArg m)) ∨
  ValueError "Goal of {goal} lies outside grid." (PairArg (0, 7)) =
    ValueError "Start of {start} lies outside grid." (PairArg (1, 0)) ∨
  ValueError "Goal of {goal} lies outside grid." (PairArg (0, 7)) =
    ValueError "Goal of {goal} lies outside grid." (PairArg (0, 7)) ∨
  ValueError "Goal of {goal} lies outside grid." (PairArg (0, 7)) =
    IndexError "tuple index out of range" NoArg ∨
  ValueError "Goal of {goal} lies outside grid." (PairArg (0, 7)) =
    ValueError "too many values to unpack (expected 2)" NoArg.
Proof.
  apply (raised_exceptions scribbling_core world23 grid23 (1, 0) (0, 7) false 0
           py_zero).
  vm_compute. reflexivity.
Defined.

(** *** Calls to the core *)

(** X10: a run of the wrapper makes at most one call to the core, and the
    call it makes is well formed: positive height and width whose product
    is the length of the weights, start and goal indices inside the
    flattened grid.  So a log of well-formed calls stays one. *)
Theorem calls_stay_well_formed (astar : core_fn) (st : world) (w : ndarray)
    (start goal : Z * Z) (d : bool) (ho : Z) (tc : spec_float) :
  (calls (snd (astar_path astar w start goal d ho tc st)) = calls st ∨
   ∃ c, calls (snd (astar_path astar w start goal d ho tc st)) =
          calls st ++ [c] ∧ well_formed_call c) ∧
  (Forall well_formed_call (calls st) →
   Forall well_formed_call
     (calls (snd (astar_path astar w start goal d ho tc st)))).
Proof.
  assert (Hone :
    calls (snd (astar_path astar w start goal d ho tc st)) = calls st ∨
    ∃ c, calls (snd (astar_path astar w start goal d ho tc st)) =
           calls st ++ [c] ∧ well_formed_call c).
  { destruct (astar_path_cases st w start goal) as [(e & Hrun & _)|(H & W & Hv)].
    - left. by rewrite Hrun.
    - right.
      rewrite (astar_path_validated astar st w start goal H W d ho tc Hv).
      destruct Hv as (_ & Hs & _ & Hstart & Hgoal).
      eexists. split; [reflexivity|].
      unfold well_formed_call, flat_index, in_bounds in *. simpl.
      unfold elements. rewrite Hs, length_gather. simpl.
      destruct start as [r k], goal as [r' k']. simpl in *.
      repeat split; nia. }
  split; [exact Hone|]. intros Hwf.
  destruct Hone as [->|(c & -> & Hc)]; [exact Hwf|].
  apply Forall_app. split; [exact Hwf|]. by constructor.
Qed.

Lemma calls_stay_well_formed_witness :
  Forall well_formed_call
    (calls (snd (astar_path scribbling_core grid23_F (1, 2) (0, 1) false 0
                   py_zero world23_F))).
Proof.
  apply (calls_stay_well_formed scribbling_core world23_F grid23_F (1, 2)
           (0, 1) false 0 py_zero).
  constructor; [|constructor].
  unfold well_formed_call. simpl. lia.
Defined.

(** X11: on a validated input the core sees equal start and goal indices
    exactly when the two pairs are equal. *)
Theorem indices_coincide_iff (astar : core_fn) (st : world) (w : ndarray)
    (start goal : Z * Z) (H W : nat) (d : bool) (ho : Z) (tc : spec_float) :
  validated st w start goal H W →
  ∃ c, calls (snd (astar_path astar w start goal d ho tc st)) =
         calls st ++ [c] ∧
       (cc_start c = cc_goal c ↔ start = goal).
Proof.
  intros Hv.
  rewrite (astar_path_validated astar st w start goal H W d ho tc Hv).
  destruct Hv as (_ & _ & _ & Hstart & Hgoal).
  eexists. split; [reflexivity|]. simpl.
  unfold flat_index, in_bounds in *.
  destruct start as [r k], goal as [r' k']. simpl in *. split.
  - intros Heq.
    assert (r = r') by nia. subst r'.
    assert (k = k') by lia. by subst k'.
  - intros [= -> ->]. reflexivity.
Qed.

Lemma indices_coincide_iff_witness :
  ∃ c, calls (snd (astar_path scribbling_core grid23 (1, 2) (0, 1) false 0
                     py_zero world23)) = calls world23 ++ [c] ∧
       (cc_start c = cc_goal c ↔ (1, 2) = (0, 1)).
Proof.
  exact (indices_coincide_iff scribbling_core world23 grid23 (1, 2) (0, 1) 2 3
           false 0 py_zero world23_validated).
Defined.

(** *** Calling twice *)

Lemma elements_kept (astar : core_fn) (st : world) (w : ndarray)
    (start goal : Z * Z) (d : bool) (ho : Z) (tc : spec_float) :
  is_Some (heap st !! base w) →
  heap (snd (astar_path astar w start goal d ho tc st)) !! base w =
    heap st !! base w ∧
  elements (snd (astar_path astar w start goal d ho tc st)) w = elements st w.
Proof.
  intros [b Hb].
  assert (Hheap : heap (snd (astar_path astar w start goal d ho tc st))
                    !! base w = heap st !! base w).
  { destruct (astar_path_cases st w start goal) as [(e & Hrun & _)|(H & W & Hv)].
    - by rewrite Hrun.
    - rewrite (astar_path_validated astar st w start goal H W d ho tc Hv). simpl.
      assert (Hne : fresh (dom (heap st)) ≠ base w).
      { intros Heq. apply (is_fresh (dom (heap st))). rewrite Heq.
        apply elem_of_dom. by exists b. }
      by rewrite !lookup_insert_ne. }
  split; [exact Hheap|]. unfold elements, buffer. by rewrite Hheap.
Qed.

(** X12: calling the wrapper a second time with the same arguments, in
    the state the first call left, gives the same outcome as the first
    call; when the first call returned, the core has been called twice
    with the same arguments.  The buffer the core scribbled on during the
    first call is not the one behind [weights]. *)
Theorem second_call_same_outcome (astar : core_fn) (st : world)
    (w : ndarray) (start goal : Z * Z) (d : bool) (ho : Z) (tc : spec_float) :
  is_Some (heap st !! base w) →
  fst (astar_path astar w start goal d ho tc
         (snd (astar_path astar w start goal d ho tc st))) =
  fst (astar_path astar w start goal d ho tc st) ∧
  (∀ r, fst (astar_path astar w start goal d ho tc st) = inr r →
     ∃ c, calls (snd (astar_path astar w start goal d ho tc
                        (snd (astar_path astar w start goal d ho tc st)))) =
          calls st ++ [c; c]).
Proof.
  intros Hw.
  destruct (elements_kept astar st w start goal d ho tc Hw) as [_ Hel].
  destruct (astar_path_cases st w start goal) as [(e & Hrun & _)|(H & W & Hv)].
  - rewrite !Hrun. simpl. rewrite ?Hrun. split; [reflexivity|].
    intros r [=].
  - assert (Hv' : validated (snd (astar_path astar w start goal d ho tc st))
                    w start goal H W).
    { destruct Hv as (Hd & Hs & Hc & Hstart & Hgoal).
      split; [exact Hd|]. split; [exact Hs|]. split; [|by split].
      by rewrite Hel. }
    rewrite (astar_path_validated astar _ w start goal H W d ho tc Hv').
    simpl. rewrite Hel.
    rewrite (astar_path_validated astar st w start goal H W d ho tc Hv).
    simpl. split; [reflexivity|].
    intros r _. eexists. rewrite <- app_assoc. reflexivity.
Qed.

Lemma second_call_same_outcome_witness :
  fst (astar_path scribbling_core grid23 (1, 2) (0, 1) false 0 py_zero
         (snd (astar_path scribbling_core grid23 (1, 2) (0, 1) false 0 py_zero
                 world23))) =
  fst (astar_path scribbling_core grid23 (1, 2) (0, 1) false 0 py_zero world23).
Proof.
  apply (second_call_same_outcome scribbling_core world23 grid23 (1, 2) (0, 1)
           false 0 py_zero).
  eexists. reflexivity.
Defined.
